(** * Offline-first cache controller of [useOfflineFirstSupabase]

    Shallow embedding of src/src/hooks/useOfflineFirstSupabase.ts:
    - the IndexedDB wrapper [OfflineFirstDB] (object stores keyed by [id]);
    - the hook's React state and refs as one explicit state record;
    - [loadData] as a machine that runs synchronously up to its first
      [await] ([call]) and then one atomic chunk per resolved promise
      ([resume]); the closure variables captured by [useCallback]
      ([user], [isOnline]) are an explicit environment;
    - the event loop around it: online/offline listener, initial-load
      effect, manual [refresh], and interleaved resumptions;
    - [testOffline]. *)

From stdpp Require Import base gmap strings list fin_maps pretty.

Section Model.

(** The record type [T extends { id: string }] of the hook. *)
Variable A : Type.
Variable rec_id : A -> string.
(** [cacheKey] option of the hook: the object store used as mirror. *)
Variable cacheKey : string.

(** ** The IndexedDB wrapper [OfflineFirstDB] *)

(** An object store created with [keyPath: 'id']: records keyed by id. *)
Abbreviation store := (gmap string A).
(** The opened database: object store name to its contents. *)
Abbreviation database := (gmap string store).

(** Outcome of a promise: resolved with a value or rejected with the
    message of the error. *)
Inductive result (R : Type) : Type :=
| Ok (v : R)
| Err (msg : string).
Arguments Ok {R} v.
Arguments Err {R} msg.

(** [onupgradeneeded]: the four object stores, created empty. *)
Definition initial_db : database :=
  list_to_map [("products", ∅); ("customers", ∅); ("sales", ∅); ("settings", ∅)].

(** [store.clear()] *)
Definition store_clear (t : store) : store := ∅.

(** [store.put(item)]: insert or overwrite the record with the item's id. *)
Definition store_put (t : store) (item : A) : store := <[rec_id item := item]> t.

(** [store.getAll()] (IndexedDB returns them in key order; the order is
    not modelled, every statement below about it is up to permutation). *)
Definition store_getAll (t : store) : list A := (map_to_list t).*2.

(** [set(storeName, data)]: one readwrite transaction that clears the store
    and puts every item. [db = None] models an [indexedDB.open] that fails
    ([init] rejects); [transaction([storeName])] on a store that was not
    created throws [NotFoundError]. *)
Definition db_set (storeName : string) (data : list A) (db : option database)
  : result database :=
  match db with
  | None => Err "UnknownError"
  | Some d =>
      match d !! storeName with
      | None => Err "NotFoundError"
      | Some t => Ok (<[storeName := foldl store_put (store_clear t) data]> d)
      end
  end.

(** [get(storeName)]: one readonly transaction with [getAll]. *)
Definition db_get (storeName : string) (db : option database) : result (list A) :=
  match db with
  | None => Err "UnknownError"
  | Some d =>
      match d !! storeName with
      | None => Err "NotFoundError"
      | Some t => Ok (store_getAll t)
      end
  end.

(** [clear(storeName)]: one readwrite transaction with [store.clear()]. *)
Definition db_clear (storeName : string) (db : option database) : result database :=
  match db with
  | None => Err "UnknownError"
  | Some d =>
      match d !! storeName with
      | None => Err "NotFoundError"
      | Some t => Ok (<[storeName := store_clear t]> d)
      end
  end.

(** ** The hook's state *)

(** React state ([data], [loading], [error], [isOnline], [lastSyncTime]),
    the refs ([initializationRef], [loadingRef]), the IndexedDB contents,
    and observation counters: error toasts raised and calls of
    [loadFromSupabase]. [st_now] is the value [new Date()] returns. *)
Record state := mkState {
  st_data : list A;
  st_loading : bool;
  st_error : option string;
  st_isOnline : bool;
  st_lastSync : option nat;
  st_now : nat;
  st_init : bool;
  st_inflight : bool;
  st_db : option database;
  st_toasts : nat;
  st_remote_reads : nat;
}.

Definition setData (v : list A) (s : state) : state :=
  mkState v (st_loading s) (st_error s) (st_isOnline s) (st_lastSync s) (st_now s)
    (st_init s) (st_inflight s) (st_db s) (st_toasts s) (st_remote_reads s).
Definition setLoading (v : bool) (s : state) : state :=
  mkState (st_data s) v (st_error s) (st_isOnline s) (st_lastSync s) (st_now s)
    (st_init s) (st_inflight s) (st_db s) (st_toasts s) (st_remote_reads s).
Definition setError (v : option string) (s : state) : state :=
  mkState (st_data s) (st_loading s) v (st_isOnline s) (st_lastSync s) (st_now s)
    (st_init s) (st_inflight s) (st_db s) (st_toasts s) (st_remote_reads s).
Definition setIsOnline (v : bool) (s : state) : state :=
  mkState (st_data s) (st_loading s) (st_error s) v (st_lastSync s) (st_now s)
    (st_init s) (st_inflight s) (st_db s) (st_toasts s) (st_remote_reads s).
Definition setLastSyncTime (v : option nat) (s : state) : state :=
  mkState (st_data s) (st_loading s) (st_error s) (st_isOnline s) v (st_now s)
    (st_init s) (st_inflight s) (st_db s) (st_toasts s) (st_remote_reads s).
Definition set_initializationRef (v : bool) (s : state) : state :=
  mkState (st_data s) (st_loading s) (st_error s) (st_isOnline s) (st_lastSync s) (st_now s)
    v (st_inflight s) (st_db s) (st_toasts s) (st_remote_reads s).
Definition set_loadingRef (v : bool) (s : state) : state :=
  mkState (st_data s) (st_loading s) (st_error s) (st_isOnline s) (st_lastSync s) (st_now s)
    (st_init s) v (st_db s) (st_toasts s) (st_remote_reads s).
Definition set_db (v : option database) (s : state) : state :=
  mkState (st_data s) (st_loading s) (st_error s) (st_isOnline s) (st_lastSync s) (st_now s)
    (st_init s) (st_inflight s) v (st_toasts s) (st_remote_reads s).
(** [toast({ variant: "destructive", ... })] *)
Definition toast (s : state) : state :=
  mkState (st_data s) (st_loading s) (st_error s) (st_isOnline s) (st_lastSync s) (st_now s)
    (st_init s) (st_inflight s) (st_db s) (S (st_toasts s)) (st_remote_reads s).
(** Invocation of [loadFromSupabase()]. *)
Definition start_remote_read (s : state) : state :=
  mkState (st_data s) (st_loading s) (st_error s) (st_isOnline s) (st_lastSync s) (st_now s)
    (st_init s) (st_inflight s) (st_db s) (st_toasts s) (S (st_remote_reads s)).

(** ** [loadData] *)

(** Values the [loadData] closure captured at the render that created it
    ([useCallback] dependencies [user] and [isOnline]). *)
Record env := mkEnv {
  env_user : option string;
  env_isOnline : bool;
}.

(** The [await] a running [loadData] is suspended at. *)
Inductive pc : Type :=
| AwaitRemote                 (* const supabaseData = await loadFromSupabase() *)
| AwaitSet (data : list A)    (* await offlineDB.set(cacheKey, supabaseData) *)
| AwaitFallback               (* inner catch: await offlineDB.get(cacheKey) *)
| AwaitCache                  (* else branch: await offlineDB.get(cacheKey) *)
| AwaitEmergency.             (* outer catch: await offlineDB.get(cacheKey) *)

(** How the promise returned by [loadFromSupabase()] settles. *)
Inductive remote_result : Type :=
| RemoteOk (data : list A)
| RemoteErr (msg : string).

(** [finally { setLoading(false); loadingRef.current = false; }] *)
Definition finish (s : state) : state := set_loadingRef false (setLoading false s).

(** The synchronous prefix of [loadData(forceRefresh)], up to its first
    [await]; [None] when the call has already returned. *)
Definition call (e : env) (forceRefresh : bool) (s : state) : option pc * state :=
  if st_inflight s then (None, s)
  else
    match env_user e with
    | None => (None, setError None (setLoading false (setData [] s)))
    | Some _ =>
        let s1 := setLoading true (set_loadingRef true s) in
        if env_isOnline e && (forceRefresh || negb (st_init s1))
        then (Some AwaitRemote, start_remote_read s1)
        else (Some AwaitCache, s1)
    end.

(** One atomic chunk of a suspended [loadData], from the resolution of the
    promise it awaits up to the next [await] or the end of the call. The
    remote outcome [r] is only consulted at [AwaitRemote]; the IndexedDB
    operations take effect when they resolve. *)
Definition resume (e : env) (p : pc) (r : remote_result) (s : state) : option pc * state :=
  match p with
  | AwaitRemote =>
      match r with
      | RemoteOk data => (Some (AwaitSet data), s)
      | RemoteErr _ => (Some AwaitFallback, s)
      end
  | AwaitSet data =>
      match db_set cacheKey data (st_db s) with
      | Ok d =>
          (None, finish (set_initializationRef true
                   (setLastSyncTime (Some (st_now s))
                      (setError None (setData data (set_db (Some d) s))))))
      | Err _ => (Some AwaitFallback, s)
      end
  | AwaitFallback | AwaitCache =>
      match db_get cacheKey (st_db s) with
      | Ok cachedData =>
          (None, finish (set_initializationRef true (setError None (setData cachedData s))))
      | Err msg => (Some AwaitEmergency, setError (Some msg) s)
      end
  | AwaitEmergency =>
      let s1 := match db_get cacheKey (st_db s) with
                | Ok cachedData => setData cachedData s
                | Err _ => setData [] s
                end in
      (None, finish (if env_isOnline e then toast s1 else s1))
  end.

(** Resume a suspended call until it returns, with no other event in
    between; every path of [loadData] has at most four [await]s. *)
Fixpoint drive (fuel : nat) (e : env) (r : remote_result) (p : option pc) (s : state)
  : state :=
  match p, fuel with
  | None, _ => s
  | Some _, O => s
  | Some q, S n => let '(p', s') := resume e q r s in drive n e r p' s'
  end.

(** A whole [loadData(forceRefresh)] run to completion. *)
Definition loadData (e : env) (forceRefresh : bool) (r : remote_result) (s : state) : state :=
  let '(p, s1) := call e forceRefresh s in drive 4 e r p s1.

(** ** The event loop around one hook instance *)

(** A hook instance: its state, the [loadData] calls currently suspended
    (with the closure they run in), the current [user] of [useAuth], the
    closure captured by the online/offline [useEffect] (re-installed when
    [user] changes), and the log of every [loadData(forceRefresh)] call. *)
Record sys := mkSys {
  sys_st : state;
  sys_threads : list (env * pc);
  sys_user : option string;
  sys_listener : env;
  sys_log : list (env * bool);
}.

Inductive event : Type :=
| EvOnline                         (* window 'online' -> handleOnline *)
| EvOffline                        (* window 'offline' -> handleOffline *)
| EvUser (u : option string)       (* useAuth's user changes: re-render, listener re-installed *)
| EvInitialLoad (e : env)          (* effect on [loadData]: if (!initializationRef.current) loadData(false) *)
| EvRefresh (e : env)              (* refresh() of a render: loadData(true) *)
| EvTestOffline (e : env)          (* testOffline: setIsOnline(false); loadData(false) *)
| EvTestOfflineEnd (b : bool)      (* testOffline: setIsOnline(originalOnline) *)
| EvResume (i : nat) (r : remote_result). (* the promise awaited by the i-th suspended call settles *)

Definition with_st (s : state) (x : sys) : sys :=
  mkSys s (sys_threads x) (sys_user x) (sys_listener x) (sys_log x).

(** Call [loadData(forceRefresh)] of closure [e]. *)
Definition invoke (e : env) (forceRefresh : bool) (x : sys) : sys :=
  let '(p, s') := call e forceRefresh (sys_st x) in
  mkSys s'
    (sys_threads x ++ match p with Some q => [(e, q)] | None => [] end)
    (sys_user x) (sys_listener x) (sys_log x ++ [(e, forceRefresh)]).

(** Resume the i-th suspended call. *)
Definition resume_thread (i : nat) (r : remote_result) (x : sys) : sys :=
  match sys_threads x !! i with
  | None => x
  | Some (e, q) =>
      let '(p, s') := resume e q r (sys_st x) in
      mkSys s'
        (take i (sys_threads x) ++ match p with Some q' => [(e, q')] | None => [] end
           ++ drop (S i) (sys_threads x))
        (sys_user x) (sys_listener x) (sys_log x)
  end.

Definition sys_exec (x : sys) (ev : event) : sys :=
  match ev with
  | EvOnline =>
      (* setIsOnline(true); if (user && !loadingRef.current) refresh(); *)
      let x1 := with_st (setIsOnline true (sys_st x)) x in
      let l := sys_listener x in
      match env_user l with
      | Some _ => if st_inflight (sys_st x1) then x1 else invoke l true x1
      | None => x1
      end
  | EvOffline => with_st (setIsOnline false (sys_st x)) x
  | EvUser u =>
      mkSys (sys_st x) (sys_threads x) u (mkEnv u (st_isOnline (sys_st x))) (sys_log x)
  | EvInitialLoad e => if st_init (sys_st x) then x else invoke e false x
  | EvRefresh e => invoke e true x
  | EvTestOffline e => invoke e false (with_st (setIsOnline false (sys_st x)) x)
  | EvTestOfflineEnd b => with_st (setIsOnline b (sys_st x)) x
  | EvResume i r => resume_thread i r x
  end.

(** The hook's first render: [useState([])], [useState(true)],
    [useState(null)], [useState(navigator.onLine)], [useState(null)],
    both refs [false]. *)
Definition initial_state (db : option database) (now : nat) (onLine : bool) : state :=
  mkState [] true None onLine None now false false db 0 0.

Definition initial_sys (db : option database) (now : nat) (onLine : bool) (u : option string)
  : sys :=
  mkSys (initial_state db now onLine) [] u (mkEnv u onLine) [].

Inductive reachable : sys -> Prop :=
| reachable_init db now onLine u : reachable (initial_sys db now onLine u)
| reachable_step x ev : reachable x -> reachable (sys_exec x ev).

(** ** [testOffline] *)

Record TestResult := mkTestResult {
  tr_success : bool;
  tr_message : string;
  tr_cacheSize : option nat;   (* details.cacheSize *)
}.

(** [testOffline] of the render whose closure is [e] (its [isOnline] and
    its [loadData]); [r] is how [loadFromSupabase] settles if [loadData]
    calls it. *)
Definition testOffline (e : env) (r : remote_result) (s : state) : TestResult * state :=
  match db_get cacheKey (st_db s) with
  | Err msg => (mkTestResult false ("Offline test failed: " +:+ msg) None, s)
  | Ok cachedData =>
      let originalOnline := env_isOnline e in
      let s1 := setIsOnline false s in
      let s2 := loadData e false r s1 in
      let s3 := setIsOnline originalOnline s2 in
      (mkTestResult true
         ("Offline test passed. " +:+ pretty (length cachedData) +:+ " items available in cache.")
         (Some (length cachedData)), s3)
  end.

(** At most one [loadData] is suspended, exactly when [loadingRef] is set. *)
Definition single_flight (x : sys) : Prop :=
  (sys_threads x = [] /\ st_inflight (sys_st x) = false) \/
  (exists t, sys_threads x = [t] /\ st_inflight (sys_st x) = true).

(** ** Statements of claims as the specification words them *)

(** [put(T, X)] then [getAll(T)] gives back exactly [X], for every list. *)
Definition put_getAll_exact : Prop :=
  forall (T : string) (X : list A) (d : database) (t : store),
    d !! T = Some t ->
    exists d' L, db_set T X (Some d) = Ok d' /\ db_get T (Some d') = Ok L /\ L ≡ₚ X.

(** The records of a list with, for each id, only the last record that
    carries it (in their order in the list): the specification's reading
    of a replace keyed by id. *)
Fixpoint keep_last (X : list A) : list A :=
  match X with
  | [] => []
  | x :: X' =>
      if bool_decide (rec_id x ∈ rec_id <$> X') then keep_last X' else x :: keep_last X'
  end.

(** Two concurrent [loadData] calls perform exactly one remote read. *)
Definition two_loads_one_remote_read : Prop :=
  forall (s : state) (e1 e2 : env) (f1 f2 : bool) (p1 : pc) (s1 : state) (r : remote_result),
    st_inflight s = false ->
    call e1 f1 s = (Some p1, s1) ->
    st_remote_reads (drive 4 e1 r (Some p1) (snd (call e2 f2 s1)))
    = S (st_remote_reads s).

(** A caller-visible condition: an error value or an error toast. *)
Definition reports_condition (s s' : state) : Prop :=
  st_error s' <> None \/ st_toasts s < st_toasts s'.

(** A first-ever offline load with an empty mirror reports a condition. *)
Definition first_offline_empty_reports : Prop :=
  forall (e : env) (u : string) (r : remote_result) (s : state),
    env_user e = Some u -> env_isOnline e = false ->
    st_init s = false -> st_inflight s = false ->
    db_get cacheKey (st_db s) = Ok [] ->
    reports_condition s (loadData e false r s).

(** Every went-online event with a signed-in user starts a forced refresh
    that reads the remote. *)
Definition online_always_refreshes : Prop :=
  forall (x : sys) (u : string),
    reachable x -> sys_user x = Some u -> st_isOnline (sys_st x) = false ->
    exists e, sys_log (sys_exec x EvOnline) = sys_log x ++ [(e, true)] /\
              st_remote_reads (sys_st (sys_exec x EvOnline))
              = S (st_remote_reads (sys_st x)).

(** [testOffline] runs the load path with connectivity forced off: it
    never calls [loadFromSupabase]. *)
Definition testOffline_runs_offline : Prop :=
  forall (e : env) (r : remote_result) (s : state),
    st_remote_reads (snd (testOffline e r s)) = st_remote_reads s.

(** [testOffline] passes exactly when a non-empty mirror is readable. *)
Definition testOffline_pass_iff_nonempty : Prop :=
  forall (e : env) (r : remote_result) (s : state),
    tr_success (fst (testOffline e r s)) = true <->
    exists c, db_get cacheKey (st_db s) = Ok c /\ c <> [].

(** ** Theorems *)

Arguments db_get : simpl never.

(** The pairs [(item.id, item)] that [store.put] writes. *)
Abbreviation keyed X := ((fun x => (rec_id x, x)) <$> X).

Lemma keyed_fst (X : list A) : (keyed X).*1 = rec_id <$> X.
Proof. induction X as [|x X IH]; csimpl; [done | by rewrite IH]. Qed.

Lemma keyed_snd (X : list A) : (keyed X).*2 = X.
Proof. induction X as [|x X IH]; csimpl; [done | by rewrite IH]. Qed.

(** Putting items with distinct ids one by one on top of [t]. *)
Lemma foldl_store_put (X : list A) (t : store) :
  NoDup (rec_id <$> X) -> foldl store_put t X = list_to_map (keyed X) ∪ t.
Proof.
  revert t. induction X as [|x X IH]; intros t Hnd; simpl.
  - by rewrite (left_id_L ∅ (∪)).
  - apply NoDup_cons in Hnd as [Hx Hnd].
    rewrite IH by done. unfold store_put.
    rewrite <- insert_union_r; [by rewrite insert_union_l|].
    apply not_elem_of_list_to_map_1. by rewrite keyed_fst.
Qed.

(** The table written by [set] holds exactly the given items. *)
Lemma store_getAll_set (t : store) (X : list A) :
  NoDup (rec_id <$> X) -> store_getAll (foldl store_put (store_clear t) X) ≡ₚ X.
Proof.
  intros Hnd. unfold store_getAll, store_clear.
  rewrite foldl_store_put by done. rewrite (right_id_L ∅ (∪)).
  rewrite map_to_list_to_map by (by rewrite keyed_fst).
  by rewrite keyed_snd.
Qed.

(** [keep_last] keeps one record per id, and every id of the list. *)
Lemma keep_last_ids (X : list A) (k : string) :
  k ∈ rec_id <$> keep_last X <-> k ∈ rec_id <$> X.
Proof.
  induction X as [|x X IH]; simpl; [done|].
  case_bool_decide as Hx.
  - rewrite IH. rewrite elem_of_cons. split; [by right|].
    intros [-> | H]; done.
  - csimpl. rewrite !elem_of_cons. by rewrite IH.
Qed.

Lemma keep_last_NoDup (X : list A) : NoDup (rec_id <$> keep_last X).
Proof.
  induction X as [|x X IH]; simpl; [constructor|].
  case_bool_decide as Hx; [done|].
  csimpl. constructor; [|done].
  by rewrite keep_last_ids.
Qed.

Lemma keep_last_NoDup_id (X : list A) : NoDup (rec_id <$> X) -> keep_last X = X.
Proof.
  induction X as [|x X IH]; simpl; [done|].
  intros Hnd. apply NoDup_cons in Hnd as [Hx Hnd].
  rewrite bool_decide_false by done. by rewrite IH.
Qed.

(** Putting items one by one on top of [t]: for each id the last item
    with it wins. *)
Lemma foldl_store_put_last (X : list A) (t : store) :
  foldl store_put t X = list_to_map (keyed (keep_last X)) ∪ t.
Proof.
  revert t. induction X as [|x X IH]; intros t; simpl.
  - by rewrite (left_id_L ∅ (∪)).
  - rewrite IH. unfold store_put.
    case_bool_decide as Hx.
    + apply map_eq. intros i. rewrite !lookup_union.
      destruct (decide (i = rec_id x)) as [->|Hne];
        [|by rewrite lookup_insert_ne by congruence].
      match goal with |- ?a ∪ _ = _ => destruct a eqn:Hl end.
      * rewrite lookup_insert_eq. destruct (t !! rec_id x); reflexivity.
      * apply not_elem_of_list_to_map_2 in Hl. rewrite keyed_fst in Hl.
        by rewrite keep_last_ids in Hl.
    + simpl. rewrite <- insert_union_r; [by rewrite insert_union_l|].
      apply not_elem_of_list_to_map_1. rewrite keyed_fst. by rewrite keep_last_ids.
Qed.

(** The table written by [set] holds the last record of each id of the
    given items. *)
Lemma store_getAll_set_last (t : store) (X : list A) :
  store_getAll (foldl store_put (store_clear t) X) ≡ₚ keep_last X.
Proof.
  unfold store_getAll, store_clear.
  rewrite foldl_store_put_last. rewrite (right_id_L ∅ (∪)).
  rewrite map_to_list_to_map by (rewrite keyed_fst; apply keep_last_NoDup).
  by rewrite keyed_snd.
Qed.

(** C2 (amended). On one of the object stores that were created, with
    storage available, [set(T, X)] is one readwrite transaction: it clears
    [T] and puts every record of [X], and no other store changes. A
    following [get(T)] returns, up to order, the last record of [X] for
    each id, whatever [T] held before; when the ids of [X] are pairwise
    distinct that is exactly the records of [X]. *)
Theorem OfflineFirstDB_set_then_get (T : string) (X : list A) (d : database) (t : store) :
  d !! T = Some t ->
  exists d' L, db_set T X (Some d) = Ok d' /\
    (forall T', T' <> T -> d' !! T' = d !! T') /\
    db_get T (Some d') = Ok L /\ L ≡ₚ keep_last X /\
    (NoDup (rec_id <$> X) -> L ≡ₚ X).
Proof.
  intros Ht. unfold db_set. rewrite Ht.
  eexists _, _. split; [reflexivity|]. split; [|split; [|split]].
  - intros T' Hne. by rewrite lookup_insert_ne by congruence.
  - unfold db_get. rewrite lookup_insert_eq. reflexivity.
  - apply store_getAll_set_last.
  - intros Hnd. rewrite store_getAll_set_last. by rewrite keep_last_NoDup_id.
Qed.

(** C1. A [loadData] call with a signed-in user, online, with
    [forceRefresh] set or before the first completed load, whose remote
    read returns [data] (ids pairwise distinct, as for an entity table),
    leaves [data] as served snapshot, replaces the mirror table by exactly
    [data] (whatever it held), stamps [lastSyncTime] and clears the error.
    The store is available and [cacheKey] is one of its object stores. *)
Theorem loadData_read_through (e : env) (u : string) (forceRefresh : bool) (data : list A)
    (s : state) (d : database) (t : store) :
  st_inflight s = false -> env_user e = Some u -> env_isOnline e = true ->
  (forceRefresh || negb (st_init s)) = true ->
  st_db s = Some d -> d !! cacheKey = Some t -> NoDup (rec_id <$> data) ->
  let s' := loadData e forceRefresh (RemoteOk data) s in
  st_data s' = data /\
  st_db s' = Some (<[cacheKey := list_to_map (keyed data)]> d) /\
  (exists L, db_get cacheKey (st_db s') = Ok L /\ L ≡ₚ data) /\
  st_lastSync s' = Some (st_now s) /\ st_error s' = None /\
  st_remote_reads s' = S (st_remote_reads s).
Proof.
  intros Hinf Hu Hon Hf Hdb Ht Hnd s'. subst s'.
  unfold loadData, call. rewrite Hinf, Hu. simpl. rewrite Hon, Hf. simpl.
  rewrite Hdb. simpl. rewrite Ht. simpl.
  split; [done|]. split.
  - unfold store_clear. rewrite foldl_store_put by done.
    by rewrite (right_id_L ∅ (∪)).
  - split; [|done]. unfold db_get. rewrite lookup_insert_eq.
    eexists. split; [reflexivity|]. by apply store_getAll_set.
Qed.

(** C3 (amended). A [loadData] call made offline by a signed-in user,
    when no other load of the controller is in flight, serves exactly the
    mirror [M] that [get(cacheKey)] returns (in particular a non-empty
    one), clears the error and calls neither [loadFromSupabase] nor
    [set]. *)
Theorem loadData_offline_serves_mirror (e : env) (u : string) (forceRefresh : bool)
    (r : remote_result) (s : state) (M : list A) :
  st_inflight s = false -> env_user e = Some u -> env_isOnline e = false ->
  db_get cacheKey (st_db s) = Ok M ->
  let s' := loadData e forceRefresh r s in
  st_data s' = M /\ st_error s' = None /\ st_remote_reads s' = st_remote_reads s /\
  st_db s' = st_db s /\ st_toasts s' = st_toasts s.
Proof.
  intros Hinf Hu Hon Hget s'. subst s'.
  unfold loadData, call. rewrite Hinf, Hu. simpl. rewrite Hon. simpl.
  rewrite Hget. simpl. done.
Qed.

(** C5. When the remote read of a [loadData] call fails, the call serves
    exactly the mirror [M] read back from the store (in particular a
    non-empty one), sets no error and raises no toast; [lastSyncTime] and
    the mirror are left as they were. The hook keeps no state tag: this
    degraded answer is the cached data with a [lastSyncTime] that the
    failed read did not refresh. *)
Theorem loadData_remote_failure_serves_cache (e : env) (u : string) (forceRefresh : bool)
    (msg : string) (s : state) (M : list A) :
  st_inflight s = false -> env_user e = Some u -> env_isOnline e = true ->
  (forceRefresh || negb (st_init s)) = true ->
  db_get cacheKey (st_db s) = Ok M ->
  let s' := loadData e forceRefresh (RemoteErr msg) s in
  st_data s' = M /\ st_error s' = None /\ st_toasts s' = st_toasts s /\
  st_lastSync s' = st_lastSync s /\ st_db s' = st_db s /\ st_loading s' = false /\
  st_remote_reads s' = S (st_remote_reads s).
Proof.
  intros Hinf Hu Hon Hf Hget s'. subst s'.
  unfold loadData, call. rewrite Hinf, Hu. simpl. rewrite Hon, Hf. simpl.
  rewrite Hget. simpl. done.
Qed.

(** C6 (amended). A first-ever load, offline, with an empty mirror serves
    the empty list with no error, no toast and [loading] false: the
    no-data case is only logged, nothing distinguishes it for the caller. *)
Theorem loadData_first_offline_empty (e : env) (u : string) (r : remote_result) (s : state) :
  st_inflight s = false -> env_user e = Some u -> env_isOnline e = false ->
  st_init s = false -> db_get cacheKey (st_db s) = Ok [] ->
  let s' := loadData e false r s in
  st_data s' = [] /\ st_error s' = None /\ st_toasts s' = st_toasts s /\
  st_loading s' = false /\ st_remote_reads s' = st_remote_reads s.
Proof.
  intros Hinf Hu Hon Hinit Hget s'. subst s'.
  unfold loadData, call. rewrite Hinf, Hu. simpl. rewrite Hon. simpl.
  rewrite Hget. simpl. done.
Qed.

(** C7 (amended). A [loadData] call without a signed-in user never touches
    the mirror, never calls [loadFromSupabase] and raises no toast; when
    no load is in flight it resets [data] to empty, clears the error and
    stops loading, and otherwise it returns at the in-flight guard. *)
Theorem loadData_no_user (e : env) (forceRefresh : bool) (r : remote_result) (s : state) :
  env_user e = None ->
  let s' := loadData e forceRefresh r s in
  st_db s' = st_db s /\ st_remote_reads s' = st_remote_reads s /\
  st_toasts s' = st_toasts s /\ st_init s' = st_init s /\
  st_inflight s' = st_inflight s /\
  (st_inflight s = false -> st_data s' = [] /\ st_error s' = None /\ st_loading s' = false) /\
  (st_inflight s = true -> s' = s).
Proof.
  intros Hu s'. subst s'. unfold loadData, call.
  destruct (st_inflight s) eqn:Hinf; simpl.
  - repeat split; congruence.
  - rewrite Hu. simpl. repeat split; congruence.
Qed.

(** Every step of a suspended [loadData] that returns has run the
    [finally] block. *)
Lemma resume_returns_finished (e : env) (p : pc) (r : remote_result) (s s' : state) :
  resume e p r s = (None, s') -> st_loading s' = false /\ st_inflight s' = false.
Proof.
  intros Hr. destruct p; simpl in Hr; repeat case_match; inversion Hr; subst; simpl; auto.
Qed.

(** How many [await]s a call suspended at [p] can still pass. *)
Definition pc_depth (p : pc) : nat :=
  match p with
  | AwaitRemote => 4
  | AwaitSet _ => 3
  | AwaitFallback | AwaitCache => 2
  | AwaitEmergency => 1
  end.

Lemma resume_decreases (e : env) (p p' : pc) (r : remote_result) (s s' : state) :
  resume e p r s = (Some p', s') -> pc_depth p' < pc_depth p.
Proof.
  intros Hr. destruct p; simpl in Hr; repeat case_match; inversion Hr; subst; simpl; lia.
Qed.

Lemma drive_finishes (n : nat) (e : env) (r : remote_result) (p : pc) (s : state) :
  pc_depth p <= n ->
  st_loading (drive n e r (Some p) s) = false /\ st_inflight (drive n e r (Some p) s) = false.
Proof.
  revert p s. induction n as [|n IH]; intros p s Hn.
  - destruct p; simpl in Hn; lia.
  - simpl. destruct (resume e p r s) as [[p'|] s'] eqn:Hr.
    + apply IH. apply resume_decreases in Hr. lia.
    + destruct n; simpl; exact (resume_returns_finished e p r s s' Hr).
Qed.

(** C10. Every [loadData] call that passes the in-flight guard, along
    whichever path (remote, cache, inner or outer catch), ends with
    [loading] false and [loadingRef] released; in the interleaved
    semantics, every step that ends a call does so as well. *)
Theorem loadData_always_releases (e : env) (forceRefresh : bool) (r : remote_result)
    (s : state) :
  st_inflight s = false ->
  st_loading (loadData e forceRefresh r s) = false /\
  st_inflight (loadData e forceRefresh r s) = false /\
  (forall e' p r' s0 s1, resume e' p r' s0 = (None, s1) ->
     st_loading s1 = false /\ st_inflight s1 = false).
Proof.
  intros Hinf. unfold loadData, call. rewrite Hinf.
  destruct (env_user e); simpl.
  - destruct (env_isOnline e && (forceRefresh || negb (st_init s))).
    + pose proof (drive_finishes 4 e r AwaitRemote
                    (start_remote_read (setLoading true (set_loadingRef true s)))) as H.
      split; [|split]; [apply H; simpl; lia | apply H; simpl; lia |].
      exact resume_returns_finished.
    + pose proof (drive_finishes 4 e r AwaitCache
                    (setLoading true (set_loadingRef true s))) as H.
      split; [|split]; [apply H; simpl; lia | apply H; simpl; lia |].
      exact resume_returns_finished.
  - split; [reflexivity|]. split; [exact Hinf | exact resume_returns_finished].
Qed.

(** ** One load at a time *)

Lemma call_inflight (e : env) (forceRefresh : bool) (s : state) :
  st_inflight s = true -> call e forceRefresh s = (None, s).
Proof. intros H. unfold call. by rewrite H. Qed.

Lemma call_free (e : env) (forceRefresh : bool) (s s' : state) (p : option pc) :
  st_inflight s = false -> call e forceRefresh s = (p, s') ->
  (p = None /\ st_inflight s' = false) \/ (exists q, p = Some q /\ st_inflight s' = true).
Proof.
  intros Hinf Hc. unfold call in Hc. rewrite Hinf in Hc.
  destruct (env_user e); [|inversion Hc; subst; left; auto].
  destruct (_ && _); inversion Hc; subst; right; eauto.
Qed.

Lemma resume_suspends (e : env) (p p' : pc) (r : remote_result) (s s' : state) :
  resume e p r s = (Some p', s') -> st_inflight s' = st_inflight s.
Proof.
  intros Hr. destruct p; simpl in Hr; repeat case_match; inversion Hr; subst; done.
Qed.

Lemma call_remote_reads (e : env) (u : string) (forceRefresh : bool) (s : state) :
  st_inflight s = false -> env_user e = Some u ->
  st_remote_reads (snd (call e forceRefresh s)) =
  if env_isOnline e && (forceRefresh || negb (st_init s))
  then S (st_remote_reads s) else st_remote_reads s.
Proof.
  intros Hinf Hu. unfold call. rewrite Hinf, Hu. simpl.
  by destruct (env_isOnline e && (forceRefresh || negb (st_init s))).
Qed.

Lemma resume_remote_reads (e : env) (p : pc) (r : remote_result) (s : state) :
  st_remote_reads (snd (resume e p r s)) = st_remote_reads s.
Proof. destruct p; simpl; repeat case_match; done. Qed.

Lemma single_flight_invoke (e : env) (forceRefresh : bool) (x : sys) :
  single_flight x -> single_flight (invoke e forceRefresh x).
Proof.
  unfold single_flight, invoke. intros [[Ht Hinf] | [t [Ht Hinf]]].
  - destruct (call e forceRefresh (sys_st x)) as [p s'] eqn:Hc. simpl.
    rewrite Ht. destruct (call_free e forceRefresh _ _ _ Hinf Hc)
      as [[-> Hi] | [q [-> Hi]]]; simpl; [left | right; eauto]; done.
  - rewrite (call_inflight e forceRefresh _ Hinf). simpl.
    right. exists t. by rewrite Ht.
Qed.

Lemma single_flight_resume (i : nat) (r : remote_result) (x : sys) :
  single_flight x -> single_flight (resume_thread i r x).
Proof.
  unfold single_flight, resume_thread. intros [[Ht Hinf] | [t [Ht Hinf]]].
  - rewrite Ht. simpl. left. by rewrite Ht.
  - rewrite Ht. destruct i as [|i]; simpl; [|right; exists t; by rewrite Ht].
    destruct t as [e q].
    destruct (resume e q r (sys_st x)) as [[p'|] s'] eqn:Hr; simpl.
    + right. exists (e, p'). split; [done|].
      by rewrite (resume_suspends _ _ _ _ _ _ Hr).
    + left. split; [done|]. by apply (resume_returns_finished e q r (sys_st x)).
Qed.

Lemma single_flight_with_st (s : state) (x : sys) :
  st_inflight s = st_inflight (sys_st x) -> single_flight x -> single_flight (with_st s x).
Proof. unfold single_flight, with_st. simpl. intros ->. done. Qed.

Lemma reachable_single_flight (x : sys) : reachable x -> single_flight x.
Proof.
  induction 1 as [db now onLine u | x ev Hx IH].
  - left. done.
  - destruct ev; simpl.
    + assert (single_flight (with_st (setIsOnline true (sys_st x)) x)) as H1
        by (apply single_flight_with_st; done).
      destruct (env_user (sys_listener x)); [|done].
      case_match; [done|]. by apply single_flight_invoke.
    + by apply single_flight_with_st.
    + done.
    + case_match; [done|]. by apply single_flight_invoke.
    + by apply single_flight_invoke.
    + apply single_flight_invoke. by apply single_flight_with_st.
    + by apply single_flight_with_st.
    + by apply single_flight_resume.
Qed.

(** C4 (amended). In every reachable state of a hook instance at most one
    [loadData] is running; a call made while one is in flight returns at
    once and changes nothing; of two overlapping calls only the first can
    call [loadFromSupabase], which it does (once) exactly when it is
    online and forced or first, and the later steps of a load never call
    it again. *)
Theorem loadData_single_flight :
  (forall x : sys, reachable x -> length (sys_threads x) <= 1) /\
  (forall (e : env) (forceRefresh : bool) (s : state),
     st_inflight s = true -> call e forceRefresh s = (None, s)) /\
  (forall (s : state) (e1 e2 : env) (f1 f2 : bool) (p1 : pc) (s1 : state),
     st_inflight s = false -> call e1 f1 s = (Some p1, s1) ->
     call e2 f2 s1 = (None, s1) /\
     st_remote_reads s1 =
       (if env_isOnline e1 && (f1 || negb (st_init s))
        then S (st_remote_reads s) else st_remote_reads s)) /\
  (forall (e : env) (p : pc) (r : remote_result) (s : state),
     st_remote_reads (snd (resume e p r s)) = st_remote_reads s).
Proof.
  split; [|split; [|split]].
  - intros x Hx. destruct (reachable_single_flight x Hx) as [[-> _] | [t [-> _]]];
      simpl; lia.
  - exact call_inflight.
  - intros s e1 e2 f1 f2 p1 s1 Hinf Hc.
    destruct (call_free e1 f1 s s1 (Some p1) Hinf Hc) as [[? _] | [q [_ Hi]]];
      [discriminate|].
    split; [by apply call_inflight|].
    destruct (env_user e1) as [u|] eqn:Hu;
      [|unfold call in Hc; rewrite Hinf, Hu in Hc; discriminate].
    pose proof (call_remote_reads e1 u f1 s Hinf Hu) as Hr.
    by rewrite Hc in Hr.
  - exact resume_remote_reads.
Qed.

(** ** The went-online listener *)

Lemma invoke_log (e : env) (forceRefresh : bool) (x : sys) :
  sys_log (invoke e forceRefresh x) = sys_log x ++ [(e, forceRefresh)].
Proof. unfold invoke. by destruct (call e forceRefresh (sys_st x)). Qed.

Lemma invoke_st (e : env) (forceRefresh : bool) (x : sys) :
  sys_st (invoke e forceRefresh x) = snd (call e forceRefresh (sys_st x)).
Proof. unfold invoke. by destruct (call e forceRefresh (sys_st x)). Qed.

Lemma resume_thread_log (i : nat) (r : remote_result) (x : sys) :
  sys_log (resume_thread i r x) = sys_log x.
Proof.
  unfold resume_thread. destruct (sys_threads x !! i) as [[e q]|]; [|done].
  by destruct (resume e q r (sys_st x)).
Qed.

(** The listener's closure always sees the current [user]. *)
Lemma reachable_listener_user (x : sys) :
  reachable x -> env_user (sys_listener x) = sys_user x.
Proof.
  induction 1 as [db now onLine u | x ev Hx IH]; [done|].
  assert (forall e f y, sys_listener (invoke e f y) = sys_listener y /\
                        sys_user (invoke e f y) = sys_user y) as Hinv
    by (intros e f y; unfold invoke; by destruct (call e f (sys_st y))).
  destruct ev; simpl; try done.
  - destruct (env_user (sys_listener x)) eqn:Hl; simpl; [|congruence].
    destruct (st_inflight (sys_st x)); simpl; [congruence|].
    destruct (Hinv (sys_listener x) true
                (with_st (setIsOnline true (sys_st x)) x)) as [-> ->]. simpl. congruence.
  - destruct (st_init (sys_st x)); [done|].
    destruct (Hinv e false x) as [-> ->]. done.
  - destruct (Hinv e true x) as [-> ->]. done.
  - destruct (Hinv e false (with_st (setIsOnline false (sys_st x)) x)) as [-> ->]. done.
  - unfold resume_thread. destruct (sys_threads x !! i) as [[e q]|]; [|done].
    by destruct (resume e q r (sys_st x)).
Qed.

(** ** Further properties of the wrapper and of [loadData] *)

(** [set(T, X)] only touches store [T]: every other store reads as before. *)
Theorem db_set_other_stores (T T' : string) (X : list A) (db : option database)
    (d' : database) :
  T' <> T -> db_set T X db = Ok d' -> db_get T' (Some d') = db_get T' db.
Proof.
  intros Hne Hs. unfold db_set in Hs.
  destruct db as [d|]; [|discriminate].
  destruct (d !! T) as [t|]; [|discriminate].
  injection Hs as <-. unfold db_get. by rewrite lookup_insert_ne by congruence.
Qed.

(** [clear(T)] on a created store empties it and leaves every other store
    as it was; on a store that does not exist, or without storage, it
    rejects and the database is untouched. *)
Theorem db_clear_then_get (T : string) (db : option database) :
  match db_clear T db with
  | Ok d' => db_get T (Some d') = Ok [] /\
             (forall T', T' <> T -> db_get T' (Some d') = db_get T' db)
  | Err msg => db_get T db = Err msg
  end.
Proof.
  unfold db_clear. destruct db as [d|]; [|done].
  destruct (d !! T) as [t|] eqn:Ht.
  - split.
    + unfold db_get. by rewrite lookup_insert_eq.
    + intros T' Hne. unfold db_get. by rewrite lookup_insert_ne by congruence.
  - unfold db_get. by rewrite Ht.
Qed.

Lemma db_get_err_set (T : string) (X : list A) (db : option database) (m : string) :
  db_get T db = Err m -> db_set T X db = Err m.
Proof.
  unfold db_get, db_set. intros H. destruct db as [d|]; [|by injection H as <-].
  destruct (d !! T); [discriminate | by injection H as <-].
Qed.

Lemma drive_remote_reads (n : nat) (e : env) (r : remote_result) (p : option pc)
    (s : state) :
  st_remote_reads (drive n e r p s) = st_remote_reads s.
Proof.
  revert p s. induction n as [|n IH]; intros [q|] s; simpl; try done.
  destruct (resume e q r s) as [p' s'] eqn:Hr. rewrite IH.
  pose proof (resume_remote_reads e q r s) as H. rewrite Hr in H. exact H.
Qed.

Lemma loadData_remote_reads_count (e : env) (forceRefresh : bool) (r : remote_result)
    (s : state) :
  st_remote_reads (loadData e forceRefresh r s) =
  if negb (st_inflight s) && bool_decide (env_user e <> None) && env_isOnline e &&
     (forceRefresh || negb (st_init s))
  then S (st_remote_reads s) else st_remote_reads s.
Proof.
  unfold loadData. destruct (call e forceRefresh s) as [p s1] eqn:Hc.
  rewrite drive_remote_reads.
  destruct (st_inflight s) eqn:Hinf.
  - rewrite call_inflight in Hc by done. by injection Hc as _ <-.
  - destruct (env_user e) as [u|] eqn:Hu.
    + pose proof (call_remote_reads e u forceRefresh s Hinf Hu) as H.
      rewrite Hc in H. simpl in H. rewrite H.
      by rewrite bool_decide_true by congruence.
    + unfold call in Hc. rewrite Hinf, Hu in Hc. injection Hc as _ <-.
      by rewrite bool_decide_false by congruence.
Qed.

(** [loadFromSupabase()] is called at most once per [loadData] call: exactly
    when no load is in flight, a user is signed in, the closure's
    [isOnline] is true, and the call is forced or the first load. *)
Theorem loadData_remote_read_once (e : env) (forceRefresh : bool) (r : remote_result)
    (s : state) :
  st_remote_reads (loadData e forceRefresh r s) =
  if negb (st_inflight s) && bool_decide (env_user e <> None) && env_isOnline e &&
     (forceRefresh || negb (st_init s))
  then S (st_remote_reads s) else st_remote_reads s.
Proof. exact (loadData_remote_reads_count e forceRefresh r s). Qed.

(** Unfold a whole [loadData] run into its paths: the in-flight guard, the
    user check, the remote/cache branch, the remote outcome, and whether
    storage and the store [cacheKey] are available. *)
Ltac load_paths s e f r :=
  unfold loadData, call; cbn;
  destruct (st_inflight s) eqn:Hinf; cbn;
  [| destruct (env_user e) eqn:Hu; cbn;
     [destruct (env_isOnline e && (f || negb (st_init s))) eqn:Hcond; cbn;
        [destruct r; cbn|] |] ];
  (destruct (st_db s) as [d|] eqn:Hdb; [destruct (d !! cacheKey) eqn:Ht|]);
  do 4 (unfold db_get, db_set; cbn;
        repeat match goal with
               | H : st_db s = _ |- context [st_db s] => rewrite H
               | H : _ !! cacheKey = _ |- context [_ !! cacheKey] => rewrite H
               end; cbn);
  repeat match goal with
         | |- context [if env_isOnline e then _ else _] => destruct (env_isOnline e) eqn:Hon
         end; cbn.

(** When the mirror cannot be read (storage unavailable, or [cacheKey] is
    not one of the object stores), every [loadData] call that gets past the
    guards ends in the outer [catch], whatever the remote returns: it
    serves the empty list, sets [error] to the read error, raises the error
    toast exactly when its closure is online, leaves [initializationRef],
    the mirror and [lastSyncTime] as they were, and releases the loading
    flags. Data fetched from the remote is dropped. *)
Theorem loadData_unreadable_mirror (e : env) (u : string) (forceRefresh : bool)
    (r : remote_result) (s : state) (m : string) :
  st_inflight s = false -> env_user e = Some u -> db_get cacheKey (st_db s) = Err m ->
  let s' := loadData e forceRefresh r s in
  st_data s' = [] /\ st_error s' = Some m /\ st_init s' = st_init s /\
  st_db s' = st_db s /\ st_lastSync s' = st_lastSync s /\
  st_toasts s' = (if env_isOnline e then S (st_toasts s) else st_toasts s) /\
  st_loading s' = false /\ st_inflight s' = false.
Proof.
  intros Hinf0 Hu0 Hg. unfold db_get in Hg.
  load_paths s e forceRefresh r; try congruence;
    injection Hg as <-; repeat split; done.
Qed.

(** When the mirror can be read, a [loadData] call never ends with an
    error and never raises the error toast; one that gets past the guards
    marks the controller initialized. *)
Theorem loadData_readable_mirror_no_error (e : env) (forceRefresh : bool) (r : remote_result)
    (s : state) (c : list A) :
  st_inflight s = false -> db_get cacheKey (st_db s) = Ok c ->
  let s' := loadData e forceRefresh r s in
  st_error s' = None /\ st_toasts s' = st_toasts s /\
  (env_user e <> None -> st_init s' = true).
Proof.
  intros Hinf0 Hg. unfold db_get in Hg.
  load_paths s e forceRefresh r; try congruence; repeat split; done.
Qed.

(** [loadData] writes the mirror only with a snapshot just read from the
    remote: either the mirror and [lastSyncTime] are unchanged, or the
    remote read succeeded with [data], the store [cacheKey] now holds
    exactly the records of [data], that list is served, [lastSyncTime] is
    the current time and the controller is initialized. *)
Theorem loadData_mirror_write (e : env) (forceRefresh : bool) (r : remote_result)
    (s : state) :
  let s' := loadData e forceRefresh r s in
  (st_db s' = st_db s /\ st_lastSync s' = st_lastSync s) \/
  (exists data d t,
     r = RemoteOk data /\ st_db s = Some d /\ d !! cacheKey = Some t /\
     st_db s' = Some (<[cacheKey := foldl store_put (store_clear t) data]> d) /\
     st_data s' = data /\ st_lastSync s' = Some (st_now s) /\ st_init s' = true).
Proof.
  load_paths s e forceRefresh r; try (left; split; done).
  right. eexists _, _, _. repeat split; done.
Qed.

Lemma resume_suspends_loading (e : env) (p p' : pc) (r : remote_result) (s s' : state) :
  resume e p r s = (Some p', s') -> st_loading s' = st_loading s.
Proof.
  intros Hr. destruct p; simpl in Hr; repeat case_match; inversion Hr; subst; done.
Qed.

(** In every reachable state of a hook instance, while a load is in
    flight ([loadingRef] set) the [loading] flag shown to the caller is
    on. *)
Theorem reachable_loading_while_inflight (x : sys) :
  reachable x -> st_inflight (sys_st x) = true -> st_loading (sys_st x) = true.
Proof.
  assert (Hcall : forall e f s, (st_inflight s = true -> st_loading s = true) ->
            let s' := snd (call e f s) in st_inflight s' = true -> st_loading s' = true).
  { intros e f s H. unfold call. cbn.
    destruct (st_inflight s) eqn:Hi; cbn; [rewrite Hi; exact H|].
    destruct (env_user e); cbn; [|intros H'; simpl in H'; congruence].
    by destruct (_ && _). }
  induction 1 as [db now onLine u | x ev Hx IH]; [done|].
  destruct ev; simpl.
  - destruct (env_user (sys_listener x)); [|exact IH].
    simpl. destruct (st_inflight (sys_st x)) eqn:Hi; [simpl; rewrite Hi; exact IH|].
    rewrite invoke_st. apply Hcall. simpl. congruence.
  - exact IH.
  - exact IH.
  - destruct (st_init (sys_st x)); [exact IH|]. rewrite invoke_st. by apply Hcall.
  - rewrite invoke_st. by apply Hcall.
  - rewrite invoke_st. by apply Hcall.
  - exact IH.
  - unfold resume_thread. destruct (sys_threads x !! i) as [[e q]|]; [|exact IH].
    destruct (resume e q r (sys_st x)) as [[p'|] s'] eqn:Hr; simpl.
    + rewrite (resume_suspends _ _ _ _ _ _ Hr), (resume_suspends_loading _ _ _ _ _ _ Hr).
      exact IH.
    + intros Hi. by rewrite (proj2 (resume_returns_finished _ _ _ _ _ Hr)) in Hi.
Qed.

(** The went-online listener runs [refresh()] of the closure it was
    installed with. If that closure saw the browser offline, the event
    sets [isOnline] but the refresh it starts reads the cache instead of
    the remote, and the listener is not re-installed (its effect depends
    only on [user] and [cacheKey]). *)
Theorem online_listener_stale_closure (x : sys) (u : string) :
  env_user (sys_listener x) = Some u -> env_isOnline (sys_listener x) = false ->
  st_inflight (sys_st x) = false ->
  let x' := sys_exec x EvOnline in
  st_isOnline (sys_st x') = true /\ sys_listener x' = sys_listener x /\
  st_remote_reads (sys_st x') = st_remote_reads (sys_st x) /\
  sys_threads x' = sys_threads x ++ [(sys_listener x, AwaitCache)] /\
  sys_log x' = sys_log x ++ [(sys_listener x, true)].
Proof.
  intros Hu Hoff Hinf. simpl. rewrite Hu. simpl. rewrite Hinf.
  unfold invoke, call. simpl. rewrite Hinf, Hu, Hoff. simpl.
  repeat split; done.
Qed.

(** [testOffline] sets the [isOnline] state to false but then calls the
    [loadData] of its own render, whose closure still holds the old
    [isOnline]: run from an online render before the first load, the
    "offline" test reads the remote. *)
Theorem testOffline_online_closure_reads_remote (e : env) (u : string) (r : remote_result)
    (s : state) (c : list A) :
  env_user e = Some u -> env_isOnline e = true -> st_init s = false ->
  st_inflight s = false -> db_get cacheKey (st_db s) = Ok c ->
  st_remote_reads (snd (testOffline e r s)) = S (st_remote_reads s).
Proof.
  intros Hu Hon Hi Hinf Hg. unfold testOffline. rewrite Hg. simpl.
  rewrite loadData_remote_reads_count. simpl. rewrite Hinf, Hu, Hon, Hi. done.
Qed.

(** [set] replaces a whole store: [set(T, X)] followed by [set(T, Y)]
    leaves the database exactly as [set(T, Y)] alone would, so nothing of
    [X] survives the second write. *)
Theorem db_set_set (T : string) (X Y : list A) (db : option database) (d1 : database) :
  db_set T X db = Ok d1 -> db_set T Y (Some d1) = db_set T Y db.
Proof.
  intros Hs. unfold db_set in *.
  destruct db as [d|]; [|discriminate].
  destruct (d !! T) as [t|]; [|discriminate].
  injection Hs as <-. rewrite lookup_insert_eq. unfold store_clear.
  by rewrite insert_insert_eq.
Qed.

End Model.

Arguments Ok {R} v.
Arguments Err {R} msg.

(** ** Concrete runs *)

(** A record [{ id, stock }] and sample inputs. *)
Abbreviation Row := (string * nat)%type.
Abbreviation row_id := (@fst string nat).
Abbreviation db_empty := (Some (initial_db Row)).
Abbreviation db_cached :=
  (Some (<["products" := ({[ "p1" := ("p1", 3) ]} : gmap string Row)]> (initial_db Row)
         : gmap string (gmap string Row))).
Abbreviation online_user := (mkEnv (Some "owner") true).
Abbreviation offline_user := (mkEnv (Some "owner") false).
Abbreviation signed_out := (mkEnv None true).
Abbreviation two_rows := [("p1", 3); ("p2", 5)].

Lemma OfflineFirstDB_set_then_get_witness :
  exists d' L, db_set Row row_id "products" [("p1", 3); ("p2", 4); ("p1", 5)] db_empty = Ok d' /\
    (forall T', T' <> "products" -> d' !! T' = initial_db Row !! T') /\
    db_get Row "products" (Some d') = Ok L /\ L ≡ₚ [("p2", 4); ("p1", 5)] /\
    (NoDup (row_id <$> [("p1", 3); ("p2", 4); ("p1", 5)]) -> L ≡ₚ [("p1", 3); ("p2", 4); ("p1", 5)]).
Proof.
  exact (OfflineFirstDB_set_then_get Row row_id "products" [("p1", 3); ("p2", 4); ("p1", 5)]
           (initial_db Row) ∅ eq_refl).
Defined.

(** C2 fails for a list with two records of the same id: the store keeps
    the later one. *)
Lemma put_getAll_duplicate_ids :
  ~ put_getAll_exact Row row_id /\
  (exists d', db_set Row row_id "products" [("p1", 3); ("p1", 5)] db_empty = Ok d' /\
              db_get Row "products" (Some d') = Ok [("p1", 5)]).
Proof.
  split.
  - intros H.
    destruct (H "products" [("p1", 3); ("p1", 5)] (initial_db Row) ∅ eq_refl)
      as (d' & L & Hs & Hg & Hp).
    vm_compute in Hs. injection Hs as <-. vm_compute in Hg. injection Hg as <-.
    apply Permutation_length in Hp. discriminate.
  - eexists. split; [reflexivity|]. vm_compute. reflexivity.
Qed.

Lemma loadData_read_through_witness :
  st_data Row (loadData Row row_id "products" online_user false (RemoteOk Row two_rows)
                 (initial_state Row db_empty 7 true)) = two_rows /\
  st_lastSync Row (loadData Row row_id "products" online_user false (RemoteOk Row two_rows)
                 (initial_state Row db_empty 7 true)) = Some 7.
Proof.
  assert (Hnd : NoDup (row_id <$> two_rows))
    by (apply (bool_decide_unpack _); vm_compute; exact I).
  pose proof (loadData_read_through Row row_id "products" online_user "owner" false two_rows
                (initial_state Row db_empty 7 true) (initial_db Row) ∅
                eq_refl eq_refl eq_refl eq_refl eq_refl eq_refl Hnd) as H.
  cbv zeta in H. destruct H as (H1 & _ & _ & H4 & _). split; [exact H1 | exact H4].
Defined.

Lemma loadData_offline_serves_mirror_witness :
  st_data Row (loadData Row row_id "products" offline_user false (RemoteErr Row "unused")
                 (initial_state Row db_cached 0 false)) = [("p1", 3)].
Proof.
  assert (Hg : db_get Row "products" db_cached = Ok [("p1", 3)]) by (vm_compute; reflexivity).
  pose proof (loadData_offline_serves_mirror Row row_id "products" offline_user "owner" false
                (RemoteErr Row "unused") (initial_state Row db_cached 0 false) [("p1", 3)]
                eq_refl eq_refl eq_refl Hg) as H.
  cbv zeta in H. exact (proj1 H).
Defined.

(** C3 fails for a call that arrives while another load is in flight: it
    returns at the in-flight guard and the mirror is not served. *)
Lemma loadData_offline_during_load :
  let s1 := snd (call Row online_user true (initial_state Row db_cached 0 true)) in
  st_inflight Row s1 = true /\
  db_get Row "products" (st_db Row s1) = Ok [("p1", 3)] /\
  st_data Row (loadData Row row_id "products" offline_user false (RemoteErr Row "unused") s1)
  = [].
Proof. vm_compute. split; [reflexivity | split; reflexivity]. Qed.

Lemma loadData_remote_failure_serves_cache_witness :
  st_data Row (loadData Row row_id "products" online_user false
                 (RemoteErr Row "Failed to fetch") (initial_state Row db_cached 0 true))
  = [("p1", 3)].
Proof.
  assert (Hg : db_get Row "products" db_cached = Ok [("p1", 3)]) by (vm_compute; reflexivity).
  pose proof (loadData_remote_failure_serves_cache Row row_id "products" online_user "owner"
                false "Failed to fetch" (initial_state Row db_cached 0 true) [("p1", 3)]
                eq_refl eq_refl eq_refl eq_refl Hg) as H.
  cbv zeta in H. exact (proj1 H).
Defined.

Lemma loadData_first_offline_empty_witness :
  st_error Row (loadData Row row_id "products" offline_user false (RemoteErr Row "unused")
                  (initial_state Row db_empty 0 false)) = None.
Proof.
  assert (Hg : db_get Row "products" db_empty = Ok []) by (vm_compute; reflexivity).
  pose proof (loadData_first_offline_empty Row row_id "products" offline_user "owner"
                (RemoteErr Row "unused") (initial_state Row db_empty 0 false)
                eq_refl eq_refl eq_refl eq_refl Hg) as H.
  cbv zeta in H. exact (proj1 (proj2 H)).
Defined.

(** C6 fails: the first offline load of an empty mirror sets no error and
    raises no toast. *)
Lemma first_offline_empty_silent :
  ~ first_offline_empty_reports Row row_id "products" /\
  st_error Row (loadData Row row_id "products" offline_user false (RemoteErr Row "unused")
                  (initial_state Row db_empty 0 false)) = None /\
  st_toasts Row (loadData Row row_id "products" offline_user false (RemoteErr Row "unused")
                   (initial_state Row db_empty 0 false)) = 0.
Proof.
  split; [|vm_compute; split; reflexivity].
  intros H.
  assert (Hg : db_get Row "products" db_empty = Ok []) by (vm_compute; reflexivity).
  destruct (H offline_user "owner" (RemoteErr Row "unused") (initial_state Row db_empty 0 false)
              eq_refl eq_refl eq_refl eq_refl Hg) as [Hc | Hc];
    vm_compute in Hc; [congruence | lia].
Qed.

(** C4 fails for two overlapping calls while offline: neither reads the
    remote. *)
Lemma two_offline_loads_no_remote_read :
  ~ two_loads_one_remote_read Row row_id "products" /\
  let s1 := snd (call Row offline_user false (initial_state Row db_cached 0 false)) in
  st_inflight Row s1 = true /\
  call Row offline_user false s1 = (None, s1) /\
  st_remote_reads Row (drive Row row_id "products" 4 offline_user (RemoteErr Row "unused")
                         (Some (AwaitCache Row)) s1) = 0.
Proof.
  split; [|vm_compute; split; [reflexivity | split; reflexivity]].
  intros H.
  specialize (H (initial_state Row db_cached 0 false) offline_user offline_user false false
                (AwaitCache Row)
                (snd (call Row offline_user false (initial_state Row db_cached 0 false)))
                (RemoteErr Row "unused") eq_refl eq_refl).
  vm_compute in H. discriminate.
Qed.

Lemma loadData_no_user_witness :
  st_data Row (loadData Row row_id "products" signed_out false (RemoteErr Row "unused")
                 (initial_state Row db_cached 0 true)) = [] /\
  st_db Row (loadData Row row_id "products" signed_out false (RemoteErr Row "unused")
               (initial_state Row db_cached 0 true)) = db_cached.
Proof.
  pose proof (loadData_no_user Row row_id "products" signed_out false (RemoteErr Row "unused")
                (initial_state Row db_cached 0 true) eq_refl) as H.
  cbv zeta in H. destruct H as (Hdb & _ & _ & _ & _ & Hfree & _).
  split; [exact (proj1 (Hfree eq_refl)) | exact Hdb].
Defined.

(** C7 fails for a call without user that arrives while a load is in
    flight (sign-out during a load): served data and [loading] stay. *)
Lemma loadData_no_user_during_load :
  let s0 := loadData Row row_id "products" offline_user false (RemoteErr Row "unused")
              (initial_state Row db_cached 0 true) in
  let s1 := snd (call Row online_user true s0) in
  st_data Row s1 = [("p1", 3)] /\
  st_data Row (loadData Row row_id "products" signed_out false (RemoteErr Row "unused") s1)
  = [("p1", 3)] /\
  st_loading Row (loadData Row row_id "products" signed_out false (RemoteErr Row "unused") s1)
  = true.
Proof. vm_compute. split; [reflexivity | split; reflexivity]. Qed.

(** C8 fails with no load in flight: the hook renders offline with a
    user signed in, its first load completes from the cache, then the
    browser goes online. The listener's [refresh()] still runs the
    [loadData] of the offline render, so the refresh serves the cache and
    [loadFromSupabase] is never called. *)
Lemma online_reconnect_serves_cache :
  ~ online_always_refreshes Row row_id "products" /\
  let x := sys_exec Row row_id "products"
             (sys_exec Row row_id "products" (initial_sys Row db_cached 0 false (Some "owner"))
                (EvInitialLoad Row offline_user))
             (EvResume Row 0 (RemoteErr Row "unused")) in
  let y := sys_exec Row row_id "products"
             (sys_exec Row row_id "products" x (EvOnline Row))
             (EvResume Row 0 (RemoteOk Row two_rows)) in
  st_inflight Row (sys_st Row x) = false /\
  st_isOnline Row (sys_st Row y) = true /\
  sys_threads Row y = [] /\
  st_data Row (sys_st Row y) = [("p1", 3)] /\
  st_remote_reads Row (sys_st Row y) = 0.
Proof.
  split; [|vm_compute; repeat split].
  intros H.
  pose (x := sys_exec Row row_id "products"
               (sys_exec Row row_id "products" (initial_sys Row db_cached 0 false (Some "owner"))
                  (EvInitialLoad Row offline_user))
               (EvResume Row 0 (RemoteErr Row "unused"))).
  assert (Hx : reachable Row row_id "products" x)
    by (apply reachable_step; apply reachable_step; apply reachable_init).
  destruct (H x "owner" Hx eq_refl eq_refl) as (e & _ & Hr).
  vm_compute in Hr. discriminate.
Qed.

(** C9 fails twice. From an online render before the first load,
    [testOffline] calls [loadFromSupabase]: [setIsOnline(false)] does not
    reach the [loadData] of its render. And with an empty mirror the
    self-test passes. *)
Lemma testOffline_not_forced_offline :
  ~ testOffline_runs_offline Row row_id "products" /\
  ~ testOffline_pass_iff_nonempty Row row_id "products" /\
  st_remote_reads Row (snd (testOffline Row row_id "products" online_user (RemoteOk Row two_rows)
                              (initial_state Row db_cached 0 true))) = 1 /\
  st_data Row (snd (testOffline Row row_id "products" online_user (RemoteOk Row two_rows)
                      (initial_state Row db_cached 0 true))) = two_rows /\
  db_get Row "products" db_empty = Ok [] /\
  tr_success (fst (testOffline Row row_id "products" offline_user (RemoteErr Row "unused")
                     (initial_state Row db_empty 0 true))) = true.
Proof.
  split; [|split; [|vm_compute; repeat split]].
  - intros H.
    specialize (H online_user (RemoteOk Row two_rows) (initial_state Row db_cached 0 true)).
    vm_compute in H. discriminate.
  - intros H.
    destruct (proj1 (H offline_user (RemoteErr Row "unused") (initial_state Row db_empty 0 true))
                eq_refl) as (c & Hc & Hne).
    vm_compute in Hc. injection Hc as <-. contradiction.
Qed.

Lemma loadData_always_releases_witness :
  st_inflight Row (loadData Row row_id "nope" online_user true (RemoteOk Row two_rows)
                     (initial_state Row db_cached 0 true)) = false.
Proof.
  exact (proj1 (proj2 (loadData_always_releases Row row_id "nope" online_user true
                         (RemoteOk Row two_rows) (initial_state Row db_cached 0 true) eq_refl))).
Defined.

Lemma db_set_other_stores_witness :
  exists d', db_set Row row_id "products" two_rows db_cached = Ok d' /\
             db_get Row "sales" (Some d') = db_get Row "sales" db_cached.
Proof.
  eexists. split; [reflexivity|].
  apply (db_set_other_stores Row row_id "products" "sales" two_rows db_cached);
    [discriminate | reflexivity].
Defined.

Lemma loadData_unreadable_mirror_witness :
  st_data Row (loadData Row row_id "orders" online_user false (RemoteOk Row two_rows)
                 (initial_state Row db_cached 0 true)) = [] /\
  st_toasts Row (loadData Row row_id "orders" online_user false (RemoteOk Row two_rows)
                   (initial_state Row db_cached 0 true)) = 1.
Proof.
  assert (Hg : db_get Row "orders" db_cached = Err "NotFoundError")
    by (vm_compute; reflexivity).
  pose proof (loadData_unreadable_mirror Row row_id "orders" online_user "owner" false
                (RemoteOk Row two_rows) (initial_state Row db_cached 0 true) "NotFoundError"
                eq_refl eq_refl Hg) as H.
  cbv zeta in H. destruct H as (H1 & _ & _ & _ & _ & H6 & _).
  split; [exact H1 | exact H6].
Defined.

Lemma loadData_readable_mirror_no_error_witness :
  st_error Row (loadData Row row_id "products" online_user true (RemoteErr Row "Failed to fetch")
                  (initial_state Row db_cached 0 true)) = None.
Proof.
  assert (Hg : db_get Row "products" db_cached = Ok [("p1", 3)]) by (vm_compute; reflexivity).
  pose proof (loadData_readable_mirror_no_error Row row_id "products" online_user true
                (RemoteErr Row "Failed to fetch") (initial_state Row db_cached 0 true)
                [("p1", 3)] eq_refl Hg) as H.
  cbv zeta in H. exact (proj1 H).
Defined.

Lemma reachable_loading_while_inflight_witness :
  st_loading Row (sys_st Row (sys_exec Row row_id "products"
                                (initial_sys Row db_cached 0 false (Some "owner"))
                                (EvInitialLoad Row offline_user))) = true.
Proof.
  apply (reachable_loading_while_inflight Row row_id "products").
  - apply reachable_step. apply reachable_init.
  - vm_compute. reflexivity.
Defined.

Lemma online_listener_stale_closure_witness :
  reachable Row row_id "products" (initial_sys Row db_cached 0 false (Some "owner")) /\
  st_remote_reads Row (sys_st Row (sys_exec Row row_id "products"
                                     (initial_sys Row db_cached 0 false (Some "owner"))
                                     (EvOnline Row))) = 0.
Proof.
  split; [apply reachable_init|].
  pose proof (online_listener_stale_closure Row row_id "products"
                (initial_sys Row db_cached 0 false (Some "owner")) "owner"
                eq_refl eq_refl eq_refl) as H.
  cbv zeta in H. exact (proj1 (proj2 (proj2 H))).
Defined.

Lemma testOffline_online_closure_reads_remote_witness :
  st_remote_reads Row (snd (testOffline Row row_id "products" online_user (RemoteOk Row two_rows)
                              (initial_state Row db_cached 0 true))) = 1.
Proof.
  assert (Hg : db_get Row "products" db_cached = Ok [("p1", 3)]) by (vm_compute; reflexivity).
  exact (testOffline_online_closure_reads_remote Row row_id "products" online_user "owner"
           (RemoteOk Row two_rows) (initial_state Row db_cached 0 true) [("p1", 3)]
           eq_refl eq_refl eq_refl eq_refl Hg).
Defined.

Lemma db_set_set_witness :
  exists d1, db_set Row row_id "products" two_rows db_cached = Ok d1 /\
             db_set Row row_id "products" [("p3", 1)] (Some d1)
             = db_set Row row_id "products" [("p3", 1)] db_cached.
Proof.
  eexists. split; [reflexivity|].
  apply (db_set_set Row row_id "products" two_rows [("p3", 1)] db_cached).
  reflexivity.
Defined.
